(** * mcfe-galaxy: containment-vessel geometry script and data-type registry

    Shallow embedding of
    - [galaxy/tools/containment_vessel/containment_vessel.py]
      ([reactor_building] with its two local helpers, and the script's
      top level), and
    - [galaxy/lib/mcfe_datatypes.py] (the [file_ext] marker classes).

    Numbers.  The script computes on Python floats: a number is a binary64
    float ([PrimFloat]), with the IEEE operations and comparisons Python
    uses.  An integer literal of the source ([2], [4], [100], the zeros of
    an offset) or of the JSON document stands for the float of the same
    value, which is what Python makes of it as soon as it meets a float.

    CadQuery.  A [cq.Workplane] value is the term of the fluent-API calls
    that built it.  Every call goes through a [kernel], which tells whether
    the library raises on it; the script's functions take the kernel as
    their first argument, and what is proved of them holds for every
    kernel. *)

From Stdlib Require Import String List Bool ZArith Floats.
Import ListNotations.

Set Warnings "-inexact-float".

Local Open Scope string_scope.
Local Open Scope float_scope.

(** ** Numbers *)

(** A Python 3-tuple of numbers. *)
Definition vec : Type := (float * float * float)%type.

(** Python's built-in [sum] on floats: start from [0], add the items left
    to right (plain additions, as CPython does up to 3.11). *)
Definition sum (l : list float) : float := fold_left PrimFloat.add l 0.

(** ** Exceptions and results *)

(** [ValueError] and [IndexError] are raised by the script and by Python;
    [LibraryError] is an exception raised inside CadQuery or its geometry
    kernel, under the name of its class: [Standard_ConstructionError],
    [StdFail_NotDone], and also the [ValueError] CadQuery itself raises
    (from a [union] on an object without a solid, say), which is told from
    the script's two by its message. *)
Inductive exn : Type :=
| ValueError (msg : string)
| IndexError (msg : string)
| LibraryError (name : string).

Inductive result (A : Type) : Type :=
| Ok (a : A)
| Raise (e : exn).

Arguments Ok {A} a.
Arguments Raise {A} e.

Definition bind {A B : Type} (m : result A) (k : A -> result B) : result B :=
  match m with
  | Ok a => k a
  | Raise e => Raise e
  end.

Notation "x <- m ;; k" := (bind m (fun x => k))
  (at level 61, m at next level, right associativity).

Notation "m >>= f" := (bind m f) (at level 50, left associativity).

(** The two errors of the script, under the names the specification gives
    them. *)
Definition InvalidGeometry : exn :=
  ValueError "outer_radius must be larger than inner_radius".

Definition InvalidRoofType : exn :=
  ValueError "Invalid roof type".

(** ** The CadQuery calls the script makes *)

Module cq.

Inductive Workplane : Type :=
| Workplane_ (plane : string)                         (* cq.Workplane(plane) *)
| transformed (w : Workplane) (offset : vec)          (* w.transformed(offset=..) *)
| cylinder (w : Workplane) (height radius : float)    (* w.cylinder(height, radius) *)
| sphere (w : Workplane) (radius : float)             (* w.sphere(radius) *)
| box (w : Workplane) (length width height : float)   (* w.box(l, w, h) *)
| translate (w : Workplane) (v : vec)                 (* w.translate(v) *)
| edges (w : Workplane) (selector : string)           (* w.edges(selector) *)
| chamfer (w : Workplane) (length : float)            (* w.chamfer(length) *)
| cut (w tool : Workplane)                            (* w.cut(tool) *)
| union (w other : Workplane).                        (* w.union(other) *)

End cq.

(** A solid is the CadQuery object holding it. *)
Definition Solid : Type := cq.Workplane.

(** The library, as far as the script can tell: for each call, on the
    object and the arguments it is made with, either the name of the
    exception it raises or nothing. *)
Definition kernel : Type := cq.Workplane -> option string.

(** One library call: the object it returns, or the exception. *)
Definition call (K : kernel) (t : cq.Workplane) : result Solid :=
  match K t with
  | Some name => Raise (LibraryError name)
  | None => Ok t
  end.

(** The methods, receiver last, so that [m >>= run.f K args] reads as the
    chained call [m.f(args)]. *)
Module run.

Definition Workplane (K : kernel) (plane : string) : result Solid :=
  call K (cq.Workplane_ plane).

Definition transformed (K : kernel) (offset : vec) (w : Solid) : result Solid :=
  call K (cq.transformed w offset).

Definition cylinder (K : kernel) (height radius : float) (w : Solid)
    : result Solid :=
  call K (cq.cylinder w height radius).

Definition sphere (K : kernel) (radius : float) (w : Solid) : result Solid :=
  call K (cq.sphere w radius).

Definition box (K : kernel) (length width height : float) (w : Solid)
    : result Solid :=
  call K (cq.box w length width height).

Definition translate (K : kernel) (v : vec) (w : Solid) : result Solid :=
  call K (cq.translate w v).

Definition edges (K : kernel) (selector : string) (w : Solid) : result Solid :=
  call K (cq.edges w selector).

Definition chamfer (K : kernel) (length : float) (w : Solid) : result Solid :=
  call K (cq.chamfer w length).

Definition cut (K : kernel) (tool : Solid) (w : Solid) : result Solid :=
  call K (cq.cut w tool).

Definition union (K : kernel) (other : Solid) (w : Solid) : result Solid :=
  call K (cq.union w other).

End run.

(** ** [reactor_building] and its local helpers *)

(** [generate_hollow_cylinder], lines 114-129.  The default of [offset] is
    [(0, 0, 0)]. *)
Definition generate_hollow_cylinder (K : kernel)
    (height outer_radius inner_radius : float) (offset : vec) : result Solid :=
  if outer_radius <=? inner_radius then
    Raise (ValueError "outer_radius must be larger than inner_radius")
  else
    cylinder1 <-
      run.Workplane K "ZX" >>= run.transformed K offset
        >>= run.cylinder K height outer_radius ;;
    cylinder2 <-
      run.Workplane K "ZX" >>= run.transformed K offset
        >>= run.cylinder K height inner_radius ;;
    cylinder <- Ok cylinder1 >>= run.cut K cylinder2 ;;
    Ok cylinder.

(** [create_roof], lines 53-112.  It is a closure of [reactor_building]:
    the captured [contain_thickness] is an argument here. *)
Definition create_roof (K : kernel) (contain_thickness : float)
    (roof_type : string) (reactor_building_radius building_height : float)
    : result Solid :=
  let roof_thickness := 0.3 in
  let offset_height := building_height / 2 + roof_thickness / 2 in
  if String.eqb roof_type "flat" then
    run.Workplane K "ZX" >>= run.transformed K (0, 0, offset_height)
      >>= run.cylinder K roof_thickness reactor_building_radius
  else if String.eqb roof_type "domed" then
    let outer_radius := reactor_building_radius in
    let inner_radius := outer_radius - contain_thickness in
    outer_sphere <-
      run.Workplane K "ZX" >>= run.transformed K (0, 0, 0)
        >>= run.sphere K outer_radius ;;
    inner_sphere <-
      run.Workplane K "ZX" >>= run.transformed K (0, 0, 0)
        >>= run.sphere K inner_radius ;;
    hemisphere <- Ok outer_sphere >>= run.cut K inner_sphere ;;
    hemisphere <- Ok hemisphere >>= run.translate K (0, offset_height, 0) ;;
    cut_box <-
      run.Workplane K "ZX"
        >>= run.box K (3 * outer_radius) (3 * outer_radius) (2 * outer_radius)
        >>= run.translate K (0, 0, 0) ;;
    hemisphere <- Ok hemisphere >>= run.cut K cut_box ;;
    Ok hemisphere
  else if String.eqb roof_type "cone" then
    let cone_height := roof_thickness * 4 in
    let bottom_radius := reactor_building_radius in
    let wall_thickness := 0.2 in
    cone_base <-
      run.Workplane K "ZX" >>= run.cylinder K cone_height bottom_radius ;;
    truncated_cone <-
      Ok cone_base >>= run.edges K ">Y"
        >>= run.chamfer K (cone_height * 0.75) ;;
    let inner_radius := bottom_radius - wall_thickness in
    inner_cone <-
      run.Workplane K "ZX" >>= run.cylinder K cone_height inner_radius ;;
    truncated_inner_cone <-
      Ok inner_cone >>= run.edges K ">Y"
        >>= run.chamfer K (cone_height * 0.75)
        >>= run.translate K (0, - 0.3, 0) ;;
    truncated_cone <- Ok truncated_cone >>= run.cut K truncated_inner_cone ;;
    cone_translated <-
      Ok truncated_cone >>= run.translate K (0, offset_height, 0) ;;
    Ok cone_translated
  else
    Raise (ValueError "Invalid roof type").

(** Lines 50 and 51, the derived dimensions of the core. *)
Definition reactor_core_radius (radial_build : list float) (major_rad : float)
    : float :=
  sum radial_build + 0.8 + major_rad.

Definition reactor_core_height (reactor_core_radius : float) : float :=
  2 * reactor_core_radius.

(** [reactor_building], lines 33-193. *)
Definition reactor_building (K : kernel)
    (radial_build : list float)
    (major_rad scale_factor shield_thickness contain_thickness : float)
    : result Solid :=
  let reactor_core_radius := reactor_core_radius radial_build major_rad in
  let reactor_core_height := reactor_core_height reactor_core_radius in
  reactor_shielding <-
    generate_hollow_cylinder K
      reactor_core_height
      reactor_core_radius
      (reactor_core_radius - shield_thickness)
      (0, 0, 0) ;;
  let building_scale_factor := scale_factor in
  reactor_building <-
    generate_hollow_cylinder K
      (reactor_core_height * building_scale_factor)
      (reactor_core_radius * building_scale_factor)
      (reactor_core_radius * building_scale_factor - contain_thickness)
      (0, 0, 0) ;;
  reactor_core_floor <-
    run.Workplane K "ZX"
      >>= run.transformed K (0, 0, (- reactor_core_height) / 2)
      >>= run.cylinder K 0.3 reactor_core_radius ;;
  reactor_building_floor <-
    run.Workplane K "ZX"
      >>= run.transformed K
            (0, 0, (- reactor_core_height) * building_scale_factor / 2)
      >>= run.cylinder K 0.3 (reactor_core_radius * building_scale_factor) ;;
  support_structure_upper <-
    generate_hollow_cylinder K
      0.3
      (reactor_core_radius * building_scale_factor)
      reactor_core_radius
      (0, 0, reactor_core_height / 2) ;;
  support_structure_middle <-
    generate_hollow_cylinder K
      0.3
      (reactor_core_radius * building_scale_factor)
      reactor_core_radius
      (0, 0, 0) ;;
  support_structure_lower <-
    generate_hollow_cylinder K
      0.3
      (reactor_core_radius * building_scale_factor)
      reactor_core_radius
      (0, 0, (- reactor_core_height) / 2) ;;
  let building_height := reactor_core_height * building_scale_factor in
  roof <-
    create_roof K contain_thickness
      "cone" (reactor_core_radius * building_scale_factor) building_height ;;
  total_structure <- Ok reactor_shielding >>= run.union K reactor_building ;;
  total_structure <- Ok total_structure >>= run.union K reactor_core_floor ;;
  total_structure <- Ok total_structure >>= run.union K reactor_building_floor ;;
  total_structure <- Ok total_structure >>= run.union K support_structure_upper ;;
  total_structure <- Ok total_structure >>= run.union K support_structure_middle ;;
  total_structure <- Ok total_structure >>= run.union K support_structure_lower ;;
  total_structure <- Ok total_structure >>= run.union K roof ;;
  box1 <-
    run.Workplane K "front" >>= run.box K 100 100 100
      >>= run.translate K (0, 0, 50) ;;
  total_structure <- Ok total_structure >>= run.cut K box1 ;;
  Ok total_structure.

(** ** The script's top level, lines 210-214 *)

(** [l[i]] for an index [i >= 0]: past the end of the list it raises
    [IndexError]. *)
Definition getitem (l : list float) (i : nat) : result float :=
  match nth_error l i with
  | Some x => Ok x
  | None => Raise (IndexError "list index out of range")
  end.

Definition major_radius (aspect_ratio : float) (radial_build_input : list float)
    : result float :=
  x <- getitem radial_build_input 0%nat ;;
  Ok (aspect_ratio * x).

Definition containment_vessel (K : kernel)
    (aspect_ratio : float) (radial_build_input : list float)
    (building_sf shield_thickness_input contain_thick : float) : result Solid :=
  major_radius <- major_radius aspect_ratio radial_build_input ;;
  reactor_building K
    radial_build_input major_radius building_sf shield_thickness_input contain_thick.

(** ** Loading the parameters, lines 196-208 *)

#[local] Unset Elimination Schemes.

(** What [json.load] returns.  A dict is the list of its items; its keys are
    distinct, and [lookup] takes the first item with the key. *)
Inductive json : Type :=
| JNull
| JBool (b : bool)
| JNumber (x : float)
| JString (s : string)
| JArray (items : list json)
| JObject (members : list (string * json)).

#[local] Set Elimination Schemes.

(** The errors a subscript [v[key]] with a string key can raise: the key is
    not in the dict, or [v] is not a dict. *)
Inductive load_error : Type :=
| KeyError (key : string)
| TypeError.

Inductive loaded (A : Type) : Type :=
| Loaded (a : A)
| Failed (e : load_error).

Arguments Loaded {A} a.
Arguments Failed {A} e.

Definition and_then {A B : Type} (m : loaded A) (k : A -> loaded B) : loaded B :=
  match m with
  | Loaded a => k a
  | Failed e => Failed e
  end.

Fixpoint lookup (key : string) (members : list (string * json)) : option json :=
  match members with
  | [] => None
  | (k, v) :: members' => if String.eqb k key then Some v else lookup key members'
  end.

(** [v[key]] for a string [key]. *)
Definition subscript (v : json) (key : string) : loaded json :=
  match v with
  | JObject members =>
      match lookup key members with
      | Some x => Loaded x
      | None => Failed (KeyError key)
      end
  | _ => Failed TypeError
  end.

(** The five values the script reads, under the names it gives them. *)
Record parameters : Type := {
  aspect_ratio : json;
  radial_build_input : json;
  building_sf : json;
  shield_thickness_input : json;
  contain_thick : json
}.

(** Lines 201-208: seven subscripts, in this order. *)
Definition load_parameters (data : json) : loaded parameters :=
  and_then (subscript data "geometry") (fun geometry_data =>
  and_then (subscript geometry_data "aspect_ratio") (fun aspect_ratio =>
  and_then (subscript geometry_data "radial_build") (fun radial_build_input =>
  and_then (subscript data "containment_vessel") (fun containment_data =>
  and_then (subscript containment_data "building_scale_factor") (fun building_sf =>
  and_then (subscript containment_data "shield_thickness")
    (fun shield_thickness_input =>
  and_then (subscript containment_data "containment_vessel_thickness")
    (fun contain_thick =>
  Loaded {| aspect_ratio := aspect_ratio;
            radial_build_input := radial_build_input;
            building_sf := building_sf;
            shield_thickness_input := shield_thickness_input;
            contain_thick := contain_thick |}))))))).

(** ** [mcfe_datatypes.py]: the marker classes and their [file_ext] *)

Module mcfe_datatypes.

(** One constructor per class of the module, in the order of the file. *)
Inductive datatype : Type :=
| vtp | vtk | vtu | pvtu | usd | usda | usdc | usdz | obj | stp | step
| h5 | h5m | out | xml | stl | npz | yaml | odb | inp | pth.

(** The name of the class, [cls.__name__]. *)
Definition class_name (c : datatype) : string :=
  match c with
  | vtp => "vtp" | vtk => "vtk" | vtu => "vtu" | pvtu => "pvtu"
  | usd => "usd" | usda => "usda" | usdc => "usdc" | usdz => "usdz"
  | obj => "obj" | stp => "stp" | step => "step"
  | h5 => "h5" | h5m => "h5m" | out => "out" | xml => "xml" | stl => "stl"
  | npz => "npz" | yaml => "yaml" | odb => "odb" | inp => "inp" | pth => "pth"
  end.

(** The class attribute [file_ext]. *)
Definition file_ext (c : datatype) : string :=
  match c with
  | vtp => "vtp" | vtk => "vtk" | vtu => "vtu" | pvtu => "pvtu"
  | usd => "usd" | usda => "udsa" | usdc => "usdc" | usdz => "usdz"
  | obj => "obj" | stp => "stp" | step => "step"
  | h5 => "h5" | h5m => "h5m" | out => "out" | xml => "xml" | stl => "stl"
  | npz => "npz" | yaml => "yaml" | odb => "odb" | inp => "inp" | pth => "pth"
  end.

Definition all_classes : list datatype :=
  [vtp; vtk; vtu; pvtu; usd; usda; usdc; usdz; obj; stp; step;
   h5; h5m; out; xml; stl; npz; yaml; odb; inp; pth].

(** The extension identifiers the module exposes. *)
Definition extensions : list string := map file_ext all_classes.

End mcfe_datatypes.

(** ** Derived forms, used to state the properties *)

(** The solid [generate_hollow_cylinder] returns when it returns: two
    cylinders on the same transformed workplane, the second cut from the
    first. *)
Definition hollow_cylinder
    (height outer_radius inner_radius : float) (offset : vec) : Solid :=
  cq.cut
    (cq.cylinder (cq.transformed (cq.Workplane_ "ZX") offset) height outer_radius)
    (cq.cylinder (cq.transformed (cq.Workplane_ "ZX") offset) height inner_radius).

(** A disk: one cylinder on the ["ZX"] workplane moved by [offset]. *)
Definition disk (height radius : float) (offset : vec) : Solid :=
  cq.cylinder (cq.transformed (cq.Workplane_ "ZX") offset) height radius.

(** A cylinder of the ["ZX"] workplane with its top edge chamfered, the
    building block of the cone roof. *)
Definition tapered_cylinder (height radius chamfer_length : float) : Solid :=
  cq.chamfer
    (cq.edges (cq.cylinder (cq.Workplane_ "ZX") height radius) ">Y")
    chamfer_length.

(** The solid of the ["cone"] branch of [create_roof], with the numbers as
    the source computes them. *)
Definition cone_roof (radius building_height : float) : Solid :=
  let h := 0.3 * 4 in
  cq.translate
    (cq.cut
       (tapered_cylinder h radius (h * 0.75))
       (cq.translate
          (tapered_cylinder h (radius - 0.2) (h * 0.75))
          (0, - 0.3, 0)))
    (0, building_height / 2 + 0.3 / 2, 0).

(** The trimming box of line 190. *)
Definition box1 : Solid :=
  cq.translate
    (cq.box (cq.Workplane_ "front") 100 100 100)
    (0, 0, 50).

(** Lines 183-191: the eight parts united in this order, then trimmed. *)
Definition assembled
    (reactor_shielding reactor_building reactor_core_floor reactor_building_floor
     support_structure_upper support_structure_middle support_structure_lower
     roof : Solid) : Solid :=
  cq.cut
    (cq.union
      (cq.union
        (cq.union
          (cq.union
            (cq.union
              (cq.union
                (cq.union reactor_shielding reactor_building)
                reactor_core_floor)
              reactor_building_floor)
            support_structure_upper)
          support_structure_middle)
        support_structure_lower)
      roof)
    box1.

(** A support ring: thickness 0.3, outer radius [r * scale_factor], inner
    radius [r], at the vertical offset [z]. *)
Definition support_ring (r scale_factor z : float) : Solid :=
  hollow_cylinder 0.3 (r * scale_factor) r (0, 0, z).

(** What the script and the library can raise inside [reactor_building]. *)
Definition guard_or_library (e : exn) : Prop :=
  e = InvalidGeometry \/ exists name, e = LibraryError name.

(** ** The specification's wording of some quantities *)


(** The cone roof with both tapered shapes at the same place when the inner
    one is subtracted, and the numbers written as [4 * 0.3],
    [0.75 * height] and [building_height / 2 + 0.15]. *)
Definition cone_roof_coaxial_same_position (radius building_height : float)
    : Solid :=
  let height := 4 * 0.3 in
  cq.translate
    (cq.cut
       (tapered_cylinder height radius (0.75 * height))
       (tapered_cylinder height (radius - 0.2) (0.75 * height)))
    (0, building_height / 2 + 0.15, 0).

(** The spec's end-to-end example. *)
Definition example_radial_build : list float := [1.0; 2.0; 3.0].
Definition example_aspect_ratio : float := 1.5.
Definition example_scale_factor : float := 1.2.
Definition example_shield_thickness : float := 0.5.
Definition example_containment_thickness : float := 0.3.

(** The keys [load_parameters] reads. *)
Definition keys_read : list string :=
  ["geometry"; "aspect_ratio"; "radial_build"; "containment_vessel";
   "building_scale_factor"; "shield_thickness"; "containment_vessel_thickness"].

(** A kernel for the examples.  It raises where the cylinder primitive of
    the geometry kernel does, on a height or a radius that is not positive,
    and nowhere else; the library itself refuses more (a chamfer that does
    not fit, a boolean operation on an empty object). *)
Definition refuses_flat_cylinders : kernel :=
  fun t =>
    match t with
    | cq.cylinder _ height radius =>
        if (0 <? height) && (0 <? radius) then None
        else Some "Standard_ConstructionError"
    | _ => None
    end.

(** * Properties *)

(** ** Results, calls and chains *)

Lemma bind_Ok {A B : Type} (m : result A) (k : A -> result B) (b : B) :
  bind m k = Ok b -> exists a, m = Ok a /\ k a = Ok b.
Proof. destruct m as [a|e]; [|discriminate]. intro H. now exists a. Qed.

Lemma bind_Raise {A B : Type} (m : result A) (k : A -> result B) (e : exn) :
  bind m k = Raise e -> m = Raise e \/ exists a, m = Ok a /\ k a = Raise e.
Proof.
  destruct m as [a|e']; simpl; intro H.
  - right. now exists a.
  - left. now injection H as ->.
Qed.

Lemma call_Ok (K : kernel) (t s : Solid) : call K t = Ok s -> s = t.
Proof. unfold call. destruct (K t); [discriminate|]. now intros [= <-]. Qed.

Lemma call_Raise (K : kernel) (t : Solid) (e : exn) :
  call K t = Raise e -> exists name, e = LibraryError name.
Proof.
  unfold call. destruct (K t) as [name|]; [|discriminate].
  intros [= <-]. now exists name.
Qed.

(** Reads a run that returned back into the object it returned: every call
    of the chain has answered with its own term. *)
Ltac inv_ok H :=
  cbv delta [run.Workplane run.transformed run.cylinder run.sphere run.box
             run.translate run.edges run.chamfer run.cut run.union] beta in H;
  lazymatch type of H with
  | bind ?m ?k = Ok ?b =>
      let a := fresh "a" in
      let Ha := fresh "Ha" in
      apply bind_Ok in H; destruct H as (a & Ha & H);
      inv_ok Ha; inv_ok H
  | call ?K ?t = Ok ?s =>
      apply call_Ok in H; first [subst s | idtac]
  | Ok ?a = Ok ?b =>
      injection H as H; first [subst a | subst b | idtac]
  | _ => idtac
  end.

(** Reads a run that raised: the exception is the library's. *)
Ltac inv_raise H :=
  cbv delta [run.Workplane run.transformed run.cylinder run.sphere run.box
             run.translate run.edges run.chamfer run.cut run.union] beta in H;
  lazymatch type of H with
  | bind ?m ?k = Raise ?e =>
      let a := fresh "a" in
      let Ha := fresh "Ha" in
      apply bind_Raise in H; destruct H as [H | (a & Ha & H)];
      [inv_raise H | inv_raise H]
  | call ?K ?t = Raise ?e => apply call_Raise in H
  | Ok ?a = Raise ?e => discriminate H
  | _ => idtac
  end.

Lemma disk_Ok (K : kernel) (height radius : float) (offset : vec) (s : Solid) :
  run.Workplane K "ZX" >>= run.transformed K offset
    >>= run.cylinder K height radius = Ok s ->
  s = disk height radius offset.
Proof. intro H. inv_ok H. reflexivity. Qed.

Lemma disk_Raise (K : kernel) (height radius : float) (offset : vec) (e : exn) :
  run.Workplane K "ZX" >>= run.transformed K offset
    >>= run.cylinder K height radius = Raise e ->
  exists name, e = LibraryError name.
Proof. intro H. inv_raise H; exact H. Qed.

Lemma union_Ok (K : kernel) (a b s : Solid) :
  Ok a >>= run.union K b = Ok s -> s = cq.union a b.
Proof. intro H. inv_ok H. reflexivity. Qed.

Lemma union_Raise (K : kernel) (a b : Solid) (e : exn) :
  Ok a >>= run.union K b = Raise e -> exists name, e = LibraryError name.
Proof. intro H. inv_raise H; exact H. Qed.

Lemma box1_Ok (K : kernel) (s : Solid) :
  run.Workplane K "front" >>= run.box K 100 100 100
    >>= run.translate K (0, 0, 50) = Ok s ->
  s = box1.
Proof. intro H. inv_ok H. reflexivity. Qed.

Lemma box1_Raise (K : kernel) (e : exn) :
  run.Workplane K "front" >>= run.box K 100 100 100
    >>= run.translate K (0, 0, 50) = Raise e ->
  exists name, e = LibraryError name.
Proof. intro H. inv_raise H; exact H. Qed.

Lemma trim_Ok (K : kernel) (a b s : Solid) :
  Ok a >>= run.cut K b = Ok s -> s = cq.cut a b.
Proof. intro H. inv_ok H. reflexivity. Qed.

Lemma trim_Raise (K : kernel) (a b : Solid) (e : exn) :
  Ok a >>= run.cut K b = Raise e -> exists name, e = LibraryError name.
Proof. intro H. inv_raise H; exact H. Qed.

(** ** Numbers *)

(** Rounding to binary64 does not look at the sign. *)
Lemma binary_round_aux_opp (s : bool) (m e : Z) (l : location) :
  SFopp (binary_round_aux prec emax s m e l)
  = binary_round_aux prec emax (negb s) m e l.
Proof.
  unfold binary_round_aux.
  destruct (shr_fexp prec emax m e l) as [mrs' e'].
  destruct (shr_fexp prec emax _ e' loc_Exact) as [mrs'' e''].
  destruct (shr_m mrs''); [reflexivity | | reflexivity].
  destruct (Z.leb e'' (emax - prec)); reflexivity.
Qed.

(** Halving commutes with negation, in binary64 too. *)
Lemma neg_half (h : float) : (- h) / 2 = - (h / 2).
Proof.
  apply Prim2SF_inj.
  rewrite div_spec, !opp_spec, div_spec.
  change (Prim2SF 2) with (S754_finite false 4503599627370496 (-51)).
  destruct (Prim2SF h) as [s | s | | s m e];
    [destruct s; reflexivity | destruct s; reflexivity | reflexivity | ].
  cbn [SFopp]. unfold SF64div, SFdiv.
  destruct (SFdiv_core_binary prec emax (Z.pos m) e 4503599627370496 (-51))
    as [[mz ez] lz].
  rewrite binary_round_aux_opp. now destruct s.
Qed.

(** The sum is the left-to-right one and it rounds: on [0.1, 0.2, 0.3] the
    core radius is 1.4000000000000001, not the float 1.4. *)
Lemma core_radius_rounds :
  reactor_core_radius [0.1; 0.2; 0.3] 0 = 1.4000000000000001 /\
  (reactor_core_radius [0.1; 0.2; 0.3] 0 =? 1.4) = false.
Proof. split; reflexivity. Qed.

(** ** The helpers, path by path *)

Lemma generate_hollow_cylinder_Ok
    (K : kernel) (height outer_radius inner_radius : float) (offset : vec)
    (s : Solid) :
  generate_hollow_cylinder K height outer_radius inner_radius offset = Ok s ->
  (outer_radius <=? inner_radius) = false /\
  s = hollow_cylinder height outer_radius inner_radius offset.
Proof.
  unfold generate_hollow_cylinder.
  destruct (outer_radius <=? inner_radius); [discriminate|].
  intro H. inv_ok H. now split.
Qed.

Lemma generate_hollow_cylinder_Raise
    (K : kernel) (height outer_radius inner_radius : float) (offset : vec)
    (e : exn) :
  generate_hollow_cylinder K height outer_radius inner_radius offset = Raise e ->
  (outer_radius <=? inner_radius) = true /\ e = InvalidGeometry \/
  (outer_radius <=? inner_radius) = false /\ exists name, e = LibraryError name.
Proof.
  unfold generate_hollow_cylinder.
  destruct (outer_radius <=? inner_radius).
  - intros [= <-]. now left.
  - intro H. right. split; [reflexivity|]. inv_raise H; exact H.
Qed.

Lemma generate_hollow_cylinder_rejects
    (K : kernel) (height outer_radius inner_radius : float) (offset : vec) :
  (outer_radius <=? inner_radius) = true ->
  generate_hollow_cylinder K height outer_radius inner_radius offset
    = Raise InvalidGeometry.
Proof. unfold generate_hollow_cylinder. now intros ->. Qed.

Lemma create_roof_cone_Ok
    (K : kernel) (contain_thickness radius building_height : float)
    (roof : Solid) :
  create_roof K contain_thickness "cone" radius building_height = Ok roof ->
  roof = cone_roof radius building_height.
Proof.
  unfold create_roof. cbn [String.eqb Ascii.eqb Bool.eqb]. cbv zeta.
  intro H. inv_ok H. reflexivity.
Qed.

Lemma create_roof_cone_Raise
    (K : kernel) (contain_thickness radius building_height : float)
    (e : exn) :
  create_roof K contain_thickness "cone" radius building_height = Raise e ->
  exists name, e = LibraryError name.
Proof.
  unfold create_roof. cbn [String.eqb Ascii.eqb Bool.eqb]. cbv zeta.
  intro H. inv_raise H; exact H.
Qed.

(** The roofs of the three branches of [create_roof] are built by different
    outermost calls, so a roof tells which branch made it. *)
Lemma create_roof_cone_only
    (K : kernel) (contain_thickness radius building_height : float)
    (roof_type : string) (r' h' : float) :
  create_roof K contain_thickness roof_type radius building_height
    = Ok (cone_roof r' h') ->
  roof_type = "cone".
Proof.
  unfold create_roof, cone_roof. cbv zeta.
  destruct (String.eqb roof_type "flat") eqn:Ef.
  { intro H. inv_ok H. discriminate H. }
  destruct (String.eqb roof_type "domed") eqn:Ed.
  { intro H. inv_ok H. discriminate H. }
  destruct (String.eqb roof_type "cone") eqn:Ec; [|discriminate].
  intros _. now apply String.eqb_eq.
Qed.

(** A structure [reactor_building] returns: the three guards have passed
    and the eight parts are the ones of the source. *)
Lemma reactor_building_Ok
    (K : kernel) (radial_build : list float)
    (major_rad scale_factor shield_thickness contain_thickness : float)
    (total_structure : Solid) :
  reactor_building K radial_build major_rad scale_factor
    shield_thickness contain_thickness = Ok total_structure ->
  let r := reactor_core_radius radial_build major_rad in
  let h := reactor_core_height r in
  ((r <=? r - shield_thickness) = false /\
   (r * scale_factor <=? r * scale_factor - contain_thickness) = false /\
   (r * scale_factor <=? r) = false) /\
  total_structure =
  assembled
    (hollow_cylinder h r (r - shield_thickness) (0, 0, 0))
    (hollow_cylinder (h * scale_factor) (r * scale_factor)
       (r * scale_factor - contain_thickness) (0, 0, 0))
    (disk 0.3 r (0, 0, (- h) / 2))
    (disk 0.3 (r * scale_factor) (0, 0, (- h) * scale_factor / 2))
    (support_ring r scale_factor (h / 2))
    (support_ring r scale_factor 0)
    (support_ring r scale_factor ((- h) / 2))
    (cone_roof (r * scale_factor) (h * scale_factor)).
Proof.
  intros H r h. unfold reactor_building in H. cbv zeta in H.
  fold r in H. fold h in H.
  apply bind_Ok in H. destruct H as (s & Hs & H).
  apply generate_hollow_cylinder_Ok in Hs. destruct Hs as [G1 ->].
  apply bind_Ok in H. destruct H as (b & Hb & H).
  apply generate_hollow_cylinder_Ok in Hb. destruct Hb as [G2 ->].
  apply bind_Ok in H. destruct H as (cf & Hcf & H).
  apply disk_Ok in Hcf. subst cf.
  apply bind_Ok in H. destruct H as (bf & Hbf & H).
  apply disk_Ok in Hbf. subst bf.
  apply bind_Ok in H. destruct H as (u & Hu & H).
  apply generate_hollow_cylinder_Ok in Hu. destruct Hu as [G3 ->].
  apply bind_Ok in H. destruct H as (m & Hm & H).
  apply generate_hollow_cylinder_Ok in Hm. destruct Hm as [_ ->].
  apply bind_Ok in H. destruct H as (l & Hl & H).
  apply generate_hollow_cylinder_Ok in Hl. destruct Hl as [_ ->].
  apply bind_Ok in H. destruct H as (roof & Hroof & H).
  apply create_roof_cone_Ok in Hroof. subst roof.
  do 7 (let t := fresh "t" in
        let Ht := fresh "Ht" in
        apply bind_Ok in H; destruct H as (t & Ht & H);
        apply union_Ok in Ht; subst t).
  apply bind_Ok in H. destruct H as (bx & Hbx & H).
  apply box1_Ok in Hbx. subst bx.
  apply bind_Ok in H. destruct H as (t & Ht & H).
  apply trim_Ok in Ht. subst t.
  injection H as <-.
  split; [now repeat split | reflexivity].
Qed.

(** An exception that leaves [reactor_building] comes from a guard of
    [generate_hollow_cylinder] or from the library. *)
Lemma reactor_building_Raise
    (K : kernel) (radial_build : list float)
    (major_rad scale_factor shield_thickness contain_thickness : float)
    (e : exn) :
  reactor_building K radial_build major_rad scale_factor
    shield_thickness contain_thickness = Raise e ->
  guard_or_library e.
Proof.
  assert (G : forall height outer inner offset,
             generate_hollow_cylinder K height outer inner offset = Raise e ->
             guard_or_library e).
  { intros height outer inner offset H.
    apply generate_hollow_cylinder_Raise in H.
    destruct H as [[_ ->] | [_ H]]; [now left | now right]. }
  intro H. unfold reactor_building in H. cbv zeta in H.
  repeat
    (apply bind_Raise in H;
     destruct H as [H | (? & _ & H)];
     [first
        [ exact (G _ _ _ _ H)
        | right; exact (disk_Raise _ _ _ _ _ H)
        | right; exact (create_roof_cone_Raise _ _ _ _ _ H)
        | right; exact (union_Raise _ _ _ _ H)
        | right; exact (box1_Raise _ _ H)
        | right; exact (trim_Raise _ _ _ _ H) ]
     |]).
  discriminate H.
Qed.


Lemma containment_vessel_cons
    (K : kernel) (aspect_ratio x : float) (l : list float)
    (building_sf shield_thickness_input contain_thick : float) :
  containment_vessel K aspect_ratio (x :: l)
    building_sf shield_thickness_input contain_thick =
  reactor_building K (x :: l) (aspect_ratio * x)
    building_sf shield_thickness_input contain_thick.
Proof. reflexivity. Qed.

(** The spec's example runs through, on the kernel of the examples. *)
Lemma example_runs :
  reactor_building refuses_flat_cylinders
    example_radial_build (example_aspect_ratio * 1.0)
    example_scale_factor example_shield_thickness example_containment_thickness
  = Ok (assembled
          (hollow_cylinder 16.6 8.3 7.800000000000001 (0, 0, 0))
          (hollow_cylinder 19.92 9.96 9.66 (0, 0, 0))
          (disk 0.3 8.3 (0, 0, - 8.3))
          (disk 0.3 9.96 (0, 0, - 9.96))
          (support_ring 8.3 1.2 8.3)
          (support_ring 8.3 1.2 0)
          (support_ring 8.3 1.2 (- 8.3))
          (cone_roof 9.96 19.92)).
Proof. vm_compute. reflexivity. Qed.

(** ** Derived dimensions *)



(** ** Hollow cylinders *)




(** ** Roofs *)

(** C5. A roof type other than ["flat"], ["domed"] and ["cone"] makes
    [create_roof] raise the invalid-roof-type error: the result is the
    error, not a solid, and no branch stands in for the unknown type. *)
Theorem create_roof_unknown_type
    (K : kernel) (contain_thickness : float) (roof_type : string)
    (reactor_building_radius building_height : float) :
  roof_type <> "flat" -> roof_type <> "domed" -> roof_type <> "cone" ->
  create_roof K contain_thickness roof_type
    reactor_building_radius building_height
    = Raise InvalidRoofType.
Proof.
  intros Hf Hd Hc. unfold create_roof.
  apply String.eqb_neq in Hf, Hd, Hc.
  rewrite Hf, Hd, Hc. reflexivity.
Qed.

Lemma create_roof_unknown_type_witness :
  create_roof refuses_flat_cylinders 0.3 "pyramid" 9.96 19.92
    = Raise InvalidRoofType.
Proof.
  apply create_roof_unknown_type; discriminate.
Defined.

(** C4, as the code has it.  A ["cone"] roof that [create_roof] returns is
    built from two cylinders of the ["ZX"] workplane of height [4 * 0.3], of
    radius [radius] and [radius - 0.2], each with its top edge chamfered by
    [0.75 * height]; the inner tapered shape is first moved by
    [(0, -0.3, 0)], that is 0.3 down the axis, and only then cut from the
    outer one; the result is moved to [building_height / 2 + 0.15] along
    the axis. *)
Theorem create_roof_cone_shape
    (K : kernel) (contain_thickness radius building_height : float)
    (roof : Solid) :
  create_roof K contain_thickness "cone" radius building_height = Ok roof ->
  roof =
  cq.translate
    (cq.cut
       (tapered_cylinder (4 * 0.3) radius (0.75 * (4 * 0.3)))
       (cq.translate
          (tapered_cylinder (4 * 0.3) (radius - 0.2) (0.75 * (4 * 0.3)))
          (0, - 0.3, 0)))
    (0, building_height / 2 + 0.15, 0).
Proof.
  intro H. apply create_roof_cone_Ok in H. subst roof. reflexivity.
Qed.

Lemma create_roof_cone_shape_witness :
  exists roof,
    create_roof refuses_flat_cylinders 0.3 "cone" 9.96 19.92 = Ok roof /\
    roof =
    cq.translate
      (cq.cut
         (tapered_cylinder (4 * 0.3) 9.96 (0.75 * (4 * 0.3)))
         (cq.translate
            (tapered_cylinder (4 * 0.3) (9.96 - 0.2) (0.75 * (4 * 0.3)))
            (0, - 0.3, 0)))
      (0, 19.92 / 2 + 0.15, 0).
Proof.
  assert (H : create_roof refuses_flat_cylinders 0.3 "cone" 9.96 19.92
              = Ok (cone_roof 9.96 19.92)) by (vm_compute; reflexivity).
  eexists. split; [exact H|].
  exact (create_roof_cone_shape _ _ _ _ _ H).
Defined.

(** C4, as stated, fails: whatever the library does, the roof [create_roof]
    returns is not the one whose two tapered shapes are at the same place
    when the inner one is subtracted.  Line 102 moves the inner shape by
    [-0.3] along the axis before the cut; on the kernel of the examples the
    roof is returned, and it is the other one. *)
Lemma create_roof_cone_not_same_position :
  create_roof refuses_flat_cylinders
    example_containment_thickness "cone" 9.96 19.92
    = Ok (cone_roof 9.96 19.92) /\
  ~ exists K : kernel,
      create_roof K example_containment_thickness "cone" 9.96 19.92
      = Ok (cone_roof_coaxial_same_position 9.96 19.92).
Proof.
  split; [vm_compute; reflexivity|].
  intros [K H]. apply create_roof_cone_Ok in H.
  unfold cone_roof, cone_roof_coaxial_same_position, tapered_cylinder in H.
  discriminate H.
Qed.

(** ** The orchestration *)

(** C3, as the code has it.  In a structure [reactor_building] returns, each
    of the three support rings has thickness 0.3, outer radius
    [core_radius * scale_factor] and inner radius [core_radius]; they sit at
    the vertical offsets [+core_height / 2], [0] and [-core_height / 2]:
    the upper and lower planes of the core, not those of the building. *)
Theorem support_structure_rings
    (K : kernel) (radial_build : list float)
    (major_rad scale_factor shield_thickness contain_thickness : float)
    (total_structure : Solid) :
  reactor_building K radial_build major_rad scale_factor
    shield_thickness contain_thickness = Ok total_structure ->
  let core_radius := reactor_core_radius radial_build major_rad in
  let core_height := reactor_core_height core_radius in
  exists reactor_shielding shell core_floor building_floor roof,
    total_structure =
    assembled reactor_shielding shell core_floor building_floor
      (hollow_cylinder 0.3 (core_radius * scale_factor) core_radius
         (0, 0, core_height / 2))
      (hollow_cylinder 0.3 (core_radius * scale_factor) core_radius
         (0, 0, 0))
      (hollow_cylinder 0.3 (core_radius * scale_factor) core_radius
         (0, 0, - (core_height / 2)))
      roof.
Proof.
  intros H core_radius core_height.
  apply reactor_building_Ok in H. destruct H as [_ ->].
  fold core_radius. fold core_height.
  rewrite neg_half.
  do 5 eexists. reflexivity.
Qed.

Lemma support_structure_rings_witness :
  exists total_structure reactor_shielding shell core_floor building_floor roof,
    reactor_building refuses_flat_cylinders
      example_radial_build (example_aspect_ratio * 1.0)
      example_scale_factor example_shield_thickness
      example_containment_thickness = Ok total_structure /\
    total_structure =
    assembled reactor_shielding shell core_floor building_floor
      (hollow_cylinder 0.3 (8.3 * 1.2) 8.3 (0, 0, 8.3))
      (hollow_cylinder 0.3 (8.3 * 1.2) 8.3 (0, 0, 0))
      (hollow_cylinder 0.3 (8.3 * 1.2) 8.3 (0, 0, - 8.3))
      roof.
Proof.
  pose proof example_runs as E.
  destruct
    (support_structure_rings _ _ _ _ _ _ _ E) as (s & b & cf & bf & roof & H).
  eexists. exists s, b, cf, bf, roof. split; [exact E|].
  exact H.
Defined.

(** C3, as stated, fails on the spec's end-to-end example: the core height
    is 16.6 and the building height 19.92, and in a structure the script
    returns, whatever the library, the upper ring sits at 8.3, not at
    19.92 / 2 = 9.96; on the kernel of the examples it returns one. *)
Lemma support_rings_not_at_building_planes :
  (exists total_structure,
     reactor_building refuses_flat_cylinders
       example_radial_build (example_aspect_ratio * 1.0)
       example_scale_factor example_shield_thickness
       example_containment_thickness = Ok total_structure /\
     ~ exists reactor_shielding shell core_floor building_floor roof,
         total_structure =
         assembled reactor_shielding shell core_floor building_floor
           (support_ring 8.3 example_scale_factor (19.92 / 2))
           (support_ring 8.3 example_scale_factor 0)
           (support_ring 8.3 example_scale_factor (- (19.92 / 2)))
           roof) /\
  forall (K : kernel) (total_structure : Solid),
    reactor_building K
      example_radial_build (example_aspect_ratio * 1.0)
      example_scale_factor example_shield_thickness
      example_containment_thickness = Ok total_structure ->
    ~ exists reactor_shielding shell core_floor building_floor roof,
        total_structure =
        assembled reactor_shielding shell core_floor building_floor
          (support_ring 8.3 example_scale_factor (19.92 / 2))
          (support_ring 8.3 example_scale_factor 0)
          (support_ring 8.3 example_scale_factor (- (19.92 / 2)))
          roof.
Proof.
  assert (A : forall (K : kernel) (total_structure : Solid),
    reactor_building K
      example_radial_build (example_aspect_ratio * 1.0)
      example_scale_factor example_shield_thickness
      example_containment_thickness = Ok total_structure ->
    ~ exists reactor_shielding shell core_floor building_floor roof,
        total_structure =
        assembled reactor_shielding shell core_floor building_floor
          (support_ring 8.3 example_scale_factor (19.92 / 2))
          (support_ring 8.3 example_scale_factor 0)
          (support_ring 8.3 example_scale_factor (- (19.92 / 2)))
          roof).
  { intros K total_structure E (s & b & cf & bf & roof & H).
    apply reactor_building_Ok in E. destruct E as [_ E].
    rewrite E in H. clear E.
    pose (upper_offset := fun t : Solid =>
      match t with
      | cq.cut
          (cq.union (cq.union (cq.union (cq.union _
             (cq.cut (cq.cylinder (cq.transformed _ (_, _, z)) _ _) _)) _) _) _) _
          => z
      | _ => 0
      end).
    apply (f_equal (fun t => upper_offset t =? 8.3)) in H.
    vm_compute in H. discriminate H. }
  split; [|exact A].
  eexists. split; [exact example_runs|].
  exact (A _ _ example_runs).
Qed.

(** C6. Whatever the parameters, the roof of a structure [reactor_building]
    returns is the one [create_roof] gives for ["cone"], the radius
    [core_radius * scale_factor] and the building height
    [core_height * scale_factor]; it is the last part united before the
    trimming cut, and no other roof type gives that roof, so no input
    selects the flat or the domed one. *)
Theorem reactor_building_roof_is_cone
    (K : kernel) (radial_build : list float)
    (major_rad scale_factor shield_thickness contain_thickness : float)
    (total_structure : Solid) :
  reactor_building K radial_build major_rad scale_factor
    shield_thickness contain_thickness = Ok total_structure ->
  let core_radius := reactor_core_radius radial_build major_rad in
  let building_height := reactor_core_height core_radius * scale_factor in
  exists below roof,
    total_structure = cq.cut (cq.union below roof) box1 /\
    create_roof K contain_thickness "cone"
      (core_radius * scale_factor) building_height = Ok roof /\
    forall roof_type,
      create_roof K contain_thickness roof_type
        (core_radius * scale_factor) building_height = Ok roof ->
      roof_type = "cone".
Proof.
  intros H core_radius building_height.
  assert (R : exists roof,
             create_roof K contain_thickness "cone"
               (core_radius * scale_factor) building_height = Ok roof).
  { unfold reactor_building in H. cbv zeta in H.
    do 7 (apply bind_Ok in H; destruct H as (? & _ & H)).
    apply bind_Ok in H. destruct H as (roof & Hroof & _).
    now exists roof. }
  destruct R as [roof Hroof].
  pose proof (create_roof_cone_Ok _ _ _ _ _ Hroof) as ->.
  apply reactor_building_Ok in H. destruct H as [_ ->].
  fold core_radius. fold building_height. unfold assembled.
  eexists. eexists. split; [reflexivity|]. split; [exact Hroof|].
  intro roof_type. apply create_roof_cone_only.
Qed.

Lemma reactor_building_roof_is_cone_witness :
  exists total_structure below roof,
    reactor_building refuses_flat_cylinders
      example_radial_build (example_aspect_ratio * 1.0)
      example_scale_factor example_shield_thickness
      example_containment_thickness = Ok total_structure /\
    total_structure = cq.cut (cq.union below roof) box1 /\
    create_roof refuses_flat_cylinders example_containment_thickness "cone"
      (reactor_core_radius example_radial_build
         (example_aspect_ratio * 1.0) * example_scale_factor)
      (reactor_core_height
         (reactor_core_radius example_radial_build
            (example_aspect_ratio * 1.0)) * example_scale_factor)
      = Ok roof.
Proof.
  pose proof example_runs as E.
  destruct (reactor_building_roof_is_cone _ _ _ _ _ _ _ E)
    as (below & roof & H1 & H2 & _).
  eexists. exists below, roof.
  split; [exact E|]. split; [exact H1 | exact H2].
Defined.

(** ** The end-to-end example *)

(** C7, as the code has it.  With [radial_build = [1.0, 2.0, 3.0]] and
    [aspect_ratio = 1.5] the major radius is 1.5, the core radius 8.3 and
    the core height 16.6, in binary64 as in exact arithmetic.  With
    [shield_thickness = 0.5] the inner radius of the shielding is
    [8.3 - 0.5], which in binary64 is 7.800000000000001; it is below 8.3,
    so the guard passes and no invalid-geometry error is raised, whatever
    the library does.  A structure the script returns has as its shielding
    the hollow cylinder of height 16.6, outer radius 8.3 and inner radius
    7.800000000000001, and on the kernel of the examples it does return
    one. *)
Theorem end_to_end_example :
  major_radius example_aspect_ratio example_radial_build = Ok 1.5 /\
  reactor_core_radius example_radial_build 1.5 = 8.3 /\
  reactor_core_height 8.3 = 16.6 /\
  8.3 - example_shield_thickness = 7.800000000000001 /\
  (7.800000000000001 <? 8.3) = true /\
  (forall K : kernel,
     generate_hollow_cylinder K
       (reactor_core_height 8.3) 8.3 (8.3 - example_shield_thickness) (0, 0, 0)
     <> Raise InvalidGeometry) /\
  (forall (K : kernel) (total_structure : Solid),
     containment_vessel K example_aspect_ratio example_radial_build
       example_scale_factor example_shield_thickness
       example_containment_thickness = Ok total_structure ->
     exists shell core_floor building_floor upper middle lower roof,
       total_structure =
       assembled
         (hollow_cylinder 16.6 8.3 7.800000000000001 (0, 0, 0))
         shell core_floor building_floor upper middle lower roof) /\
  exists total_structure,
    containment_vessel refuses_flat_cylinders
      example_aspect_ratio example_radial_build
      example_scale_factor example_shield_thickness
      example_containment_thickness = Ok total_structure.
Proof.
  split; [reflexivity|]. split; [reflexivity|]. split; [reflexivity|].
  split; [reflexivity|]. split; [reflexivity|]. split; [|split].
  - intros K H. apply generate_hollow_cylinder_Raise in H.
    destruct H as [[G _] | [_ [name H]]].
    + vm_compute in G. discriminate G.
    + discriminate H.
  - intros K total_structure H.
    change (containment_vessel K example_aspect_ratio example_radial_build
              example_scale_factor example_shield_thickness
              example_containment_thickness)
      with (reactor_building K example_radial_build
              (example_aspect_ratio * 1.0)
              example_scale_factor example_shield_thickness
              example_containment_thickness) in H.
    apply reactor_building_Ok in H. destruct H as [_ ->].
    do 7 eexists. reflexivity.
  - eexists. exact example_runs.
Qed.

(** C7, as stated, fails in one number: the inner radius the script passes
    for the shielding is not 7.8.  In binary64 [8.3 - 0.5] is
    7.800000000000001, the next float above 7.8, and no kernel makes
    [generate_hollow_cylinder] return the hollow cylinder of inner radius
    7.8. *)
Lemma shielding_inner_radius_is_not_7_8 :
  reactor_core_radius example_radial_build 1.5 - example_shield_thickness
    <> 7.8 /\
  ~ exists K : kernel,
      generate_hollow_cylinder K
        (reactor_core_height 8.3) 8.3 (8.3 - example_shield_thickness)
        (0, 0, 0)
      = Ok (hollow_cylinder 16.6 8.3 7.8 (0, 0, 0)).
Proof.
  assert (N : 7.800000000000001 <> 7.8).
  { intro H. apply (f_equal (fun x => x =? 7.8)) in H.
    vm_compute in H. discriminate H. }
  split.
  - exact N.
  - intros [K H]. apply generate_hollow_cylinder_Ok in H.
    destruct H as [_ H].
    pose (inner_radius := fun t : Solid =>
      match t with
      | cq.cut _ (cq.cylinder _ _ radius) => radius
      | _ => 0
      end).
    apply (f_equal inner_radius) in H. vm_compute in H.
    apply N. symmetry. exact H.
Qed.

(** ** Which inputs [reactor_building] accepts *)




(** ** Registered extensions *)

(** C8, on the code: the class [usda] registers the extension ["udsa"], two
    letters swapped, so ["usda"] is not among the module's extensions; every
    other class registers its own name. *)
Theorem usda_file_ext_is_udsa :
  mcfe_datatypes.file_ext mcfe_datatypes.usda = "udsa" /\
  mcfe_datatypes.file_ext mcfe_datatypes.usda
    <> mcfe_datatypes.class_name mcfe_datatypes.usda /\
  ~ In "usda" mcfe_datatypes.extensions /\
  forall c : mcfe_datatypes.datatype,
    c = mcfe_datatypes.usda \/
    mcfe_datatypes.file_ext c = mcfe_datatypes.class_name c.
Proof.
  split; [reflexivity|]. split; [discriminate|]. split.
  - unfold mcfe_datatypes.extensions. simpl. intro H.
    repeat (destruct H as [H|H]; [discriminate H|]). exact H.
  - intros []; (right; reflexivity) || (left; reflexivity).
Qed.

(** * Further properties of the code *)

(** ** [reactor_building]: its errors *)



(** X4. The first guard comes before any library call: when
    [core_radius <= core_radius - shield_thickness] holds in the script's
    arithmetic (a shield thickness that is zero or negative, or too small
    to lower the core radius in binary64), [reactor_building] raises the
    invalid-geometry error, whatever the library would do. *)
Theorem reactor_building_first_guard
    (K : kernel) (radial_build : list float)
    (major_rad scale_factor shield_thickness contain_thickness : float) :
  let r := reactor_core_radius radial_build major_rad in
  (r <=? r - shield_thickness) = true ->
  reactor_building K radial_build major_rad scale_factor
    shield_thickness contain_thickness = Raise InvalidGeometry.
Proof.
  intros r G. unfold reactor_building. cbv zeta. fold r.
  rewrite (generate_hollow_cylinder_rejects _ _ _ _ _ G). reflexivity.
Qed.

(** A shield of 1e-17 on the core radius 8.3: the subtraction returns 8.3,
    and a kernel that refuses every call is never asked. *)
Lemma reactor_building_first_guard_witness :
  (reactor_core_radius example_radial_build 1.5
   <=? reactor_core_radius example_radial_build 1.5 - 1e-17) = true /\
  reactor_building (fun _ => Some "refused") example_radial_build 1.5
    example_scale_factor 1e-17 example_containment_thickness
  = Raise InvalidGeometry.
Proof.
  assert (G : (reactor_core_radius example_radial_build 1.5
               <=? reactor_core_radius example_radial_build 1.5 - 1e-17)
              = true) by reflexivity.
  split; [exact G|].
  exact (reactor_building_first_guard
           (fun _ => Some "refused") example_radial_build 1.5
           example_scale_factor 1e-17 example_containment_thickness G).
Defined.

(** ** The script: [major_radius] and [reactor_building] together *)

(** X6. The script raises [IndexError] exactly when [radial_build] is
    empty: the first item is read before anything is built, and nothing
    else in the run indexes a list. *)
Theorem containment_vessel_index_error_iff
    (K : kernel) (aspect_ratio : float) (radial_build_input : list float)
    (building_sf shield_thickness_input contain_thick : float) :
  (exists msg,
     containment_vessel K aspect_ratio radial_build_input
       building_sf shield_thickness_input contain_thick
     = Raise (IndexError msg))
  <-> radial_build_input = [].
Proof.
  destruct radial_build_input as [|x l].
  - split; [reflexivity | intros _; eexists; reflexivity].
  - rewrite containment_vessel_cons.
    split; [|discriminate].
    intros [msg H]. apply reactor_building_Raise in H.
    destruct H as [H | [name H]]; discriminate H.
Qed.

(** ** The registry of extensions *)

(** X8. No two classes of [mcfe_datatypes] register the same extension:
    a class is determined by its [file_ext], the misspelt one included. *)
Theorem file_ext_injective (c d : mcfe_datatypes.datatype) :
  mcfe_datatypes.file_ext c = mcfe_datatypes.file_ext d -> c = d.
Proof.
  destruct c, d; intro H; solve [reflexivity | discriminate H].
Qed.

Lemma file_ext_injective_witness :
  mcfe_datatypes.file_ext mcfe_datatypes.stp
    = mcfe_datatypes.file_ext mcfe_datatypes.stp /\
  mcfe_datatypes.stp = mcfe_datatypes.stp.
Proof.
  split; [reflexivity|].
  exact (file_ext_injective mcfe_datatypes.stp mcfe_datatypes.stp eq_refl).
Defined.

(** ** Loading the parameters *)

(** X9. [load_parameters] returns exactly when the document is a dict whose
    ["geometry"] and ["containment_vessel"] items are dicts holding the five
    keys; it returns the five values as they stand in the document, of
    whatever type: nothing is validated or converted. *)
Theorem load_parameters_loaded_iff (data : json) (p : parameters) :
  load_parameters data = Loaded p <->
  exists members geometry_data containment_data,
    data = JObject members /\
    lookup "geometry" members = Some (JObject geometry_data) /\
    lookup "aspect_ratio" geometry_data = Some (aspect_ratio p) /\
    lookup "radial_build" geometry_data = Some (radial_build_input p) /\
    lookup "containment_vessel" members = Some (JObject containment_data) /\
    lookup "building_scale_factor" containment_data = Some (building_sf p) /\
    lookup "shield_thickness" containment_data
      = Some (shield_thickness_input p) /\
    lookup "containment_vessel_thickness" containment_data
      = Some (contain_thick p).
Proof.
  split.
  - destruct data as [| | | | |members]; try discriminate.
    unfold load_parameters, subscript, and_then.
    destruct (lookup "geometry" members) as [[| | | | |g]|] eqn:Eg;
      try discriminate.
    destruct (lookup "aspect_ratio" g) as [a|] eqn:Ea; [|discriminate].
    destruct (lookup "radial_build" g) as [rb|] eqn:Erb; [|discriminate].
    destruct (lookup "containment_vessel" members) as [[| | | | |c]|] eqn:Ec;
      try discriminate.
    destruct (lookup "building_scale_factor" c) as [sf|] eqn:Esf;
      [|discriminate].
    destruct (lookup "shield_thickness" c) as [st|] eqn:Est; [|discriminate].
    destruct (lookup "containment_vessel_thickness" c) as [ct|] eqn:Ect;
      [|discriminate].
    intro H. injection H as <-. cbn.
    exists members, g, c. repeat split; assumption.
  - intros (members & g & c & -> & Eg & Ea & Erb & Ec & Esf & Est & Ect).
    unfold load_parameters, subscript, and_then.
    rewrite Eg, Ea, Erb, Ec, Esf, Est, Ect. now destruct p.
Qed.

(** X10. When [load_parameters] fails, the error is a [TypeError] (the
    document or a section is not a dict) or the [KeyError] of one of the
    seven keys it reads. *)
Theorem load_parameters_failed (data : json) (e : load_error) :
  load_parameters data = Failed e ->
  e = TypeError \/ exists key, e = KeyError key /\ In key keys_read.
Proof.
  assert (K : forall key, In key keys_read ->
              e = KeyError key ->
              e = TypeError \/ exists k, e = KeyError k /\ In k keys_read)
    by (intros key Hin ->; right; eexists; split; [reflexivity | exact Hin]).
  unfold load_parameters.
  destruct data as [| | | | |members];
    try (intro H; injection H as <-; left; reflexivity).
  unfold subscript, and_then.
  destruct (lookup "geometry" members) as [[| | | | |g]|];
    try (intro H; injection H as <-; left; reflexivity);
    [|intro H; injection H as <-; eapply K; [|reflexivity]; simpl; tauto].
  destruct (lookup "aspect_ratio" g);
    [|intro H; injection H as <-; eapply K; [|reflexivity]; simpl; tauto].
  destruct (lookup "radial_build" g);
    [|intro H; injection H as <-; eapply K; [|reflexivity]; simpl; tauto].
  destruct (lookup "containment_vessel" members) as [[| | | | |c]|];
    try (intro H; injection H as <-; left; reflexivity);
    [|intro H; injection H as <-; eapply K; [|reflexivity]; simpl; tauto].
  destruct (lookup "building_scale_factor" c);
    [|intro H; injection H as <-; eapply K; [|reflexivity]; simpl; tauto].
  destruct (lookup "shield_thickness" c);
    [|intro H; injection H as <-; eapply K; [|reflexivity]; simpl; tauto].
  destruct (lookup "containment_vessel_thickness" c);
    [discriminate|].
  intro H; injection H as <-; eapply K; [|reflexivity]; simpl; tauto.
Qed.

(** A document with its geometry section but no containment section. *)
Lemma load_parameters_failed_witness :
  load_parameters
    (JObject
       [("geometry",
         JObject [("aspect_ratio", JNumber 1.5);
                  ("radial_build", JArray [JNumber 1.0])])])
    = Failed (KeyError "containment_vessel") /\
  (KeyError "containment_vessel" = TypeError \/
   exists key, KeyError "containment_vessel" = KeyError key /\ In key keys_read).
Proof.
  assert (H : load_parameters
    (JObject
       [("geometry",
         JObject [("aspect_ratio", JNumber 1.5);
                  ("radial_build", JArray [JNumber 1.0])])])
    = Failed (KeyError "containment_vessel")) by reflexivity.
  split; [exact H|].
  exact (load_parameters_failed _ _ H).
Defined.
